(** * NimbusCore.h: debugging tools, collection tests, paths

    A shallow embedding of the macros of [src/core/src/NimbusCore.h].

    The header is preprocessor text: a macro is modelled as a function of the
    build configuration (which [#ifdef] branch is taken), of the call site
    (what the identifiers of the expansion resolve to there) and of its
    arguments.  A macro argument is substituted unevaluated, so an argument
    is a computation on the program state, and the expansion decides whether
    and when it runs. *)

From stdpp Require Import base strings pretty list gmap.
From Stdlib Require Import ZArith Ascii.

Local Open Scope Z_scope.

(** ** Build configuration *)

(** The two preprocessor symbols the header tests: [#ifdef DEBUG] and
    [#if TARGET_IPHONE_SIMULATOR]. *)
Record Build : Type := mkBuild {
  DEBUG : bool;
  TARGET_IPHONE_SIMULATOR : bool
}.

(** ** Log levels (lines 83-85) *)

Definition NILOGLEVEL_INFO : Z := 5.
Definition NILOGLEVEL_WARNING : Z := 3.
Definition NILOGLEVEL_ERROR : Z := 1.

(** ** Program state *)

(** What a run of the program can observe or change: the global
    [NIMaxLogLevel] (an [NSInteger]; every [NSInteger] is an integer, and the
    header only compares it with [<=], where no wrap-around occurs), the lines
    written by [NSLog], the program's own variables (for arguments with side
    effects), whether an interactive debugger is attached, how many times the
    debugger stopped on a breakpoint trap, and whether the process is still
    running. *)
Record World : Type := mkWorld {
  NIMaxLogLevel : Z;
  console : list string;
  vars : gmap string Z;
  debugger : bool;
  breaks : nat;
  alive : bool
}.

Definition set_NIMaxLogLevel (v : Z) (w : World) : World :=
  mkWorld v (console w) (vars w) (debugger w) (breaks w) (alive w).

Definition write_console (line : string) (w : World) : World :=
  mkWorld (NIMaxLogLevel w) (console w ++ [line]) (vars w) (debugger w)
          (breaks w) (alive w).

Definition set_var (x : string) (v : Z) (w : World) : World :=
  mkWorld (NIMaxLogLevel w) (console w) (<[x := v]> (vars w)) (debugger w)
          (breaks w) (alive w).

Definition get_var (x : string) (w : World) : Z := default 0 (vars w !! x).

(** ** Expressions and statements *)

(** An expression of C evaluates to a value and may change the state. *)
Definition M (A : Type) : Type := World -> A * World.

(** A statement changes the state. *)
Definition Stmt : Type := World -> World.

Definition ret {A : Type} (a : A) : M A := fun w => (a, w).

Definition bind {A B : Type} (m : M A) (k : A -> M B) : M B :=
  fun w => let (a, w1) := m w in k a w1.

(** [((void)0)]: the expansion of every macro when [DEBUG] is not defined. *)
Definition void0 : Stmt := fun w => w.

(** [s1; s2] *)
Definition seq (s1 s2 : Stmt) : Stmt := fun w => s2 (s1 w).

(** [if (c) { s }]: a scalar is true when it is not zero. *)
Definition IF (c : M Z) (s : Stmt) : Stmt :=
  fun w => let (v, w1) := c w in if v =? 0 then w1 else s w1.

(** [!(c)] *)
Definition NOT (c : M Z) : M Z :=
  fun w => let (v, w1) := c w in (if v =? 0 then 1 else 0, w1).

(** [(a <= b)], left operand first. *)
Definition LE (a b : M Z) : M Z :=
  fun w => let (x, w1) := a w in
           let (y, w2) := b w1 in
           (if x <=? y then 1 else 0, w2).

(** [(a == b)], left operand first. *)
Definition EQ (a b : M Z) : M Z :=
  fun w => let (x, w1) := a w in
           let (y, w2) := b w1 in
           (if x =? y then 1 else 0, w2).

(** Reading the global [NIMaxLogLevel]. *)
Definition read_NIMaxLogLevel : M Z := fun w => (NIMaxLogLevel w, w).

(** [NIMaxLogLevel = v;] *)
Definition assign_NIMaxLogLevel (v : Z) : Stmt := set_NIMaxLogLevel v.

(** A macro parameter that the expansion also stringifies ([#xx]): its source
    text and its meaning. *)
Record Expr : Type := mkExpr {
  text : string;
  eval : M Z
}.

(** ** Formatting *)

(** A variadic argument of [NSLog]. *)
Inductive Arg : Type :=
  | CString (s : string)
  | Int (n : Z)
  | Object (description : string).

Definition render (a : Arg) : string :=
  match a with
  | CString s => s
  | Int n => pretty n
  | Object d => d
  end.

(** The printf-style substitution of [NSLog], for one-letter conversions
    ([%s], [%d], [%@], ...) and [%%].  A conversion takes the next argument;
    an argument of another type than the conversion asks for, or a missing
    one, is undefined in C: here the argument is written by its own type and
    a missing one writes nothing. *)
Fixpoint format (fmt : string) (args : list Arg) : string :=
  match fmt with
  | EmptyString => EmptyString
  | String c rest =>
      if Ascii.eqb c "%"%char then
        match rest with
        | EmptyString => EmptyString
        | String d rest' =>
            if Ascii.eqb d "%"%char then String "%"%char (format rest' args)
            else match args with
                 | [] => format rest' []
                 | a :: args' => render a +:+ format rest' args'
                 end
        end
      else String c (format rest args)
  end.

(** Arguments of a call are evaluated before the call, here from left to
    right. *)
Fixpoint eval_args (va : list (M Arg)) : M (list Arg) :=
  match va with
  | [] => ret []
  | a :: va' => bind a (fun v => bind (eval_args va') (fun vs => ret (v :: vs)))
  end.

(** [NSLog(fmt, ...)]: one line on the console. *)
Definition NSLog (fmt : string) (va : list (M Arg)) : Stmt :=
  fun w => let (vs, w1) := eval_args va w in write_console (format fmt vs) w1.

(** ** Call sites *)

(** What the identifiers of an expansion stand for where the macro is used.
    The compiler supplies [__LINE__] and [__PRETTY_FUNCTION__] (the name of
    the enclosing method).  [NIDPRINT] names neither of the compiler's
    function-name identifiers: it names [__PRENIY_FUNCTION__], which the
    header does not declare and the compiler does not define, so the
    expansion compiles only where the call site has a C string of that name
    in scope, and it reads that string.  A call site is therefore described
    by the three of them, independent of one another. *)
Record CallSite : Type := mkCallSite {
  PRETTY_FUNCTION : string;
  LINE : Z;
  PRENIY_FUNCTION : string
}.

(** ** Debugging tools (lines 102-167) *)

(** [NIDPRINT(xx, ...)], lines 102-106.  [xx] is a string literal, pasted
    after the literal ["%s(%d): "]. *)
Definition NIDPRINT (b : Build) (cs : CallSite) (xx : string)
    (va : list (M Arg)) : Stmt :=
  if DEBUG b
  then NSLog ("%s(%d): " +:+ xx)
             (ret (CString (PRENIY_FUNCTION cs)) :: ret (Int (LINE cs)) :: va)
  else void0.

(** [NIDPRINTMETHODNAME()], line 111. *)
Definition NIDPRINTMETHODNAME (b : Build) (cs : CallSite) : Stmt :=
  NIDPRINT b cs "%s" [ret (CString (PRENIY_FUNCTION cs))].

(** Modelled from the spec: the body of [int NIIsInDebugger()], declared on
    line 124, is not in the header.  The spec calls it a query on the host,
    "is an interactive debugger attached": it answers from the state and
    changes nothing. *)
Definition NIIsInDebugger : M Z :=
  fun w => (if debugger w then 1 else 0, w).

(** [__asm__("int $3\n" : : )]: the breakpoint instruction.  An attached
    debugger stops on it and the program goes on when it is resumed; with no
    debugger the trap is not handled and the process ends. *)
Definition int3 : Stmt :=
  fun w =>
    if debugger w
    then mkWorld (NIMaxLogLevel w) (console w) (vars w) (debugger w)
                 (S (breaks w)) (alive w)
    else mkWorld (NIMaxLogLevel w) (console w) (vars w) (debugger w)
                 (breaks w) false.

(** [NIDASSERT(xx)], lines 119-136. *)
Definition NIDASSERT (b : Build) (cs : CallSite) (xx : Expr) : Stmt :=
  if DEBUG b then
    if TARGET_IPHONE_SIMULATOR b then
      IF (NOT (eval xx))
         (seq (NIDPRINT b cs "NIDASSERT failed: %s" [ret (CString (text xx))])
              (IF NIIsInDebugger int3))
    else
      IF (NOT (eval xx))
         (NIDPRINT b cs "NIDASSERT failed: %s" [ret (CString (text xx))])
  else void0.

(** [NIDASSERT(xx)] again, lines 119-136, with the function the expansion
    calls under the name [NIIsInDebugger] as a parameter: the header declares
    it and leaves its body, and what it does besides answering, open. *)
Definition NIDASSERT_calling (query : M Z) (b : Build) (cs : CallSite)
    (xx : Expr) : Stmt :=
  if DEBUG b then
    if TARGET_IPHONE_SIMULATOR b then
      IF (NOT (eval xx))
         (seq (NIDPRINT b cs "NIDASSERT failed: %s" [ret (CString (text xx))])
              (IF query int3))
    else
      IF (NOT (eval xx))
         (NIDPRINT b cs "NIDASSERT failed: %s" [ret (CString (text xx))])
  else void0.

(** [NIDCONDITIONLOG(condition, xx, ...)], lines 138-143. *)
Definition NIDCONDITIONLOG (b : Build) (cs : CallSite) (condition : M Z)
    (xx : string) (va : list (M Arg)) : Stmt :=
  if DEBUG b
  then IF condition (NIDPRINT b cs xx va)
  else void0.

(** [NIDERROR(xx, ...)], line 156. *)
Definition NIDERROR (b : Build) (cs : CallSite) (xx : string)
    (va : list (M Arg)) : Stmt :=
  NIDCONDITIONLOG b cs (LE (ret NILOGLEVEL_ERROR) read_NIMaxLogLevel) xx va.

(** [NIDWARNING(xx, ...)], lines 161-162. *)
Definition NIDWARNING (b : Build) (cs : CallSite) (xx : string)
    (va : list (M Arg)) : Stmt :=
  NIDCONDITIONLOG b cs (LE (ret NILOGLEVEL_WARNING) read_NIMaxLogLevel) xx va.

(** [NIDINFO(xx, ...)], line 167. *)
Definition NIDINFO (b : Build) (cs : CallSite) (xx : string)
    (va : list (M Arg)) : Stmt :=
  NIDCONDITIONLOG b cs (LE (ret NILOGLEVEL_INFO) read_NIMaxLogLevel) xx va.

(** The three level-based loggers, to quantify over them. *)
Inductive Severity : Type := Error | Warning | Info.

Definition rank (s : Severity) : Z :=
  match s with
  | Error => NILOGLEVEL_ERROR
  | Warning => NILOGLEVEL_WARNING
  | Info => NILOGLEVEL_INFO
  end.

Definition NIDLEVEL (s : Severity) :
    Build -> CallSite -> string -> list (M Arg) -> Stmt :=
  match s with
  | Error => NIDERROR
  | Warning => NIDWARNING
  | Info => NIDINFO
  end.

(** Modelled from the spec: the definition of [NIMaxLogLevel] (line 94 only
    declares it [extern]) is not in the header.  The spec and the header's
    comment give its value at process start: [NILOGLEVEL_WARNING].  Nothing
    is on the console, no variable is set, the process runs. *)
Definition process_start (attached : bool) : World :=
  mkWorld NILOGLEVEL_WARNING [] ∅ attached 0 true.

(** Some arguments with side effects, for examples: [i++] and [++i] on a
    program variable. *)
Definition post_incr (x : string) : M Z :=
  fun w => (get_var x w, set_var x (get_var x w + 1) w).

Definition pre_incr (x : string) : M Z :=
  fun w => (get_var x w + 1, set_var x (get_var x w + 1) w).

Definition as_int (e : M Z) : M Arg := bind e (fun v => ret (Int v)).

(** The line [NIDPRINT] writes for a formatted message [msg]. *)
Definition log_line (cs : CallSite) (msg : string) : string :=
  PRENIY_FUNCTION cs +:+ "(" +:+ pretty (LINE cs) +:+ "): " +:+ msg.

(** The lines a statement adds to the console when run from [w]. *)
Definition emitted (st : Stmt) (w : World) : list string :=
  drop (length (console w)) (console (st w)).

(** A call site inside the method [-[Foo bar]] where a string named
    [__PRENIY_FUNCTION__] happens to be in scope, and two builds. *)
Definition here : CallSite := mkCallSite "-[Foo bar]" 42 "tag".
Definition debug_build : Build := mkBuild true true.
Definition release_build : Build := mkBuild false false.

(** The line a failed [NIDASSERT(xx)] writes. *)
Definition assert_line (cs : CallSite) (xx : Expr) : string :=
  log_line cs ("NIDASSERT failed: " +:+ text xx).

(** ** Non-empty collection testing (lines 236-249) *)

(** A value of type [id]: [nil], or an object of one of the Foundation
    classes.  A set is given by the list of its distinct members. *)
#[local] Unset Elimination Schemes.
Inductive Id : Type :=
  | Nil
  | NSArray (objects : list Id)
  | NSSet (members : list Id)
  | NSString (characters : string)
  | NSDictionary (entries : list (Id * Id))
  | NSNumber (n : Z)
  | NSNull.
#[local] Set Elimination Schemes.

(** Modelled from the spec: the body of [NIIsArrayWithObjects], declared on
    line 239, is not in the header.  The spec: false for an absent value,
    false for a value that is not a sequence, false for a sequence of zero
    elements, true otherwise. *)
Definition NIIsArrayWithObjects (object : Id) : bool :=
  match object with
  | NSArray objects => (0 <? length objects)%nat
  | _ => false
  end.

(** Modelled from the spec: the body of [NIIsSetWithObjects], declared on
    line 244, is not in the header.  The spec: as above, for a set. *)
Definition NIIsSetWithObjects (object : Id) : bool :=
  match object with
  | NSSet members => (0 <? length members)%nat
  | _ => false
  end.

(** Modelled from the spec: the body of [NIIsStringWithAnyText], declared on
    line 249, is not in the header.  The spec: as above, for a text, empty
    when its length is zero. *)
Definition NIIsStringWithAnyText (object : Id) : bool :=
  match object with
  | NSString characters => (0 <? String.length characters)%nat
  | _ => false
  end.

(** ** Non-retaining collections (lines 193-213) *)

(** Reference counting: the heap maps each live object to its retain count,
    the number of owners; an object that is not in the heap has been
    destroyed. *)
Abbreviation Heap := (gmap positive nat).

(** [[o retain]] *)
Definition retain (o : positive) (h : Heap) : Heap := alter S o h.

(** [[o release]]: the object is destroyed when its last owner lets go. *)
Definition release (o : positive) (h : Heap) : Heap :=
  match h !! o with
  | Some (S (S n)) => <[o := S n]> h
  | Some _ => delete o h
  | None => h
  end.

(** A mutable collection holds references to objects and is configured,
    when it is created, to own them (retain on insertion) or not. *)
Record MutableArray : Type := mkArray {
  array_retains : bool;
  array_objects : list positive
}.

Record MutableSet : Type := mkSet {
  set_retains : bool;
  set_members : gset positive
}.

Record MutableDictionary : Type := mkDictionary {
  dictionary_retains : bool;
  dictionary_values : gmap string positive
}.

(** Modelled from the spec: the body of [NICreateNonRetainingArray],
    declared on line 198, is not in the header.  The spec: it returns an
    empty, mutable container configured so that adding an element stores a
    non-owning reference. *)
Definition NICreateNonRetainingArray : MutableArray := mkArray false [].

(** Modelled from the spec: the body of [NICreateNonRetainingDictionary],
    declared on line 206, is not in the header.  The spec: as above, for a
    key-value mapping and its values. *)
Definition NICreateNonRetainingDictionary : MutableDictionary :=
  mkDictionary false ∅.

(** Modelled from the spec: the body of [NICreateNonRetainingSet], declared
    on line 213, is not in the header.  The spec: as above, for a set. *)
Definition NICreateNonRetainingSet : MutableSet := mkSet false ∅.

(** [[NSMutableArray array]] of Foundation, the ordinary owning array, for
    comparison. *)
Definition NSMutableArray_array : MutableArray := mkArray true [].

(** [[a addObject:o]] *)
Definition array_addObject (o : positive) (st : MutableArray * Heap) :
    MutableArray * Heap :=
  let (a, h) := st in
  (mkArray (array_retains a) (array_objects a ++ [o]),
   if array_retains a then retain o h else h).

(** [[s addObject:o]]: nothing happens when [o] is already a member. *)
Definition set_addObject (o : positive) (st : MutableSet * Heap) :
    MutableSet * Heap :=
  let (s, h) := st in
  if bool_decide (o ∈ set_members s) then (s, h)
  else (mkSet (set_retains s) ({[o]} ∪ set_members s),
        if set_retains s then retain o h else h).

(** [[d setObject:o forKey:k]]: an owning dictionary lets go of the value
    the key had. *)
Definition dictionary_setObject (k : string) (o : positive)
    (st : MutableDictionary * Heap) : MutableDictionary * Heap :=
  let (d, h) := st in
  (mkDictionary (dictionary_retains d) (<[k := o]> (dictionary_values d)),
   if dictionary_retains d
   then match dictionary_values d !! k with
        | Some old => release old (retain o h)
        | None => retain o h
        end
   else h).

(** Insertions one after the other, into a collection and the heap it lives
    in. *)
Definition array_addObjects (os : list positive)
    (st : MutableArray * Heap) : MutableArray * Heap :=
  foldl (fun st o => array_addObject o st) st os.

Definition set_addObjects (os : list positive)
    (st : MutableSet * Heap) : MutableSet * Heap :=
  foldl (fun st o => set_addObject o st) st os.

Definition dictionary_setObjects (kos : list (string * positive))
    (st : MutableDictionary * Heap) : MutableDictionary * Heap :=
  foldl (fun st ko => dictionary_setObject ko.1 ko.2 st) st kos.

(** ** Paths (lines 343-356) *)

(** The host: the resource directory of the main bundle, the documents
    directory, and the paths that exist on disk. *)
Record Host : Type := mkHost {
  mainBundle_resourcePath : string;
  documentsPath : string;
  files : gset string
}.

Record NSBundle : Type := mkBundle {
  resourcePath : string
}.

(** A path without the separators it starts with. *)
Fixpoint drop_leading_separators (s : string) : string :=
  match s with
  | EmptyString => EmptyString
  | String c rest =>
      if Ascii.eqb c "/"%char then drop_leading_separators rest else s
  end.

(** A path without the separators it ends with. *)
Fixpoint drop_trailing_separators (s : string) : string :=
  match s with
  | EmptyString => EmptyString
  | String c rest =>
      match drop_trailing_separators rest with
      | EmptyString =>
          if Ascii.eqb c "/"%char then EmptyString else String c EmptyString
      | rest' => String c rest'
      end
  end.

(** Modelled from the spec: the joining step of the two path builders, whose
    bodies are not in the header.  The spec: the concatenation of the base
    directory and the relative path with a normalized separator, correct
    whether or not the relative path starts with one.  Whatever separators
    the base ends with and the relative path starts with, one separator
    stands between the two in the result. *)
Definition append_path_component (base relativePath : string) : string :=
  drop_trailing_separators base +:+ "/"
  +:+ drop_leading_separators relativePath.

(** Modelled from the spec: the body of [NIPathForBundleResource], declared
    on line 350, is not in the header.  The spec: the application-resource
    root joined with the relative path, with no look at the disk; line 346
    of the header: "If nil, [NSBundle mainBundle] will be used." *)
Definition NIPathForBundleResource (host : Host) (bundle : option NSBundle)
    (relativePath : string) : string :=
  append_path_component
    (default (mainBundle_resourcePath host) (resourcePath <$> bundle))
    relativePath.

(** Modelled from the spec: the body of [NIPathForDocumentsResource],
    declared on line 356, is not in the header.  The spec: the user-writable
    documents root joined with the relative path, with no look at the
    disk. *)
Definition NIPathForDocumentsResource (host : Host) (relativePath : string) :
    string :=
  append_path_component (documentsPath host) relativePath.

(** [n] separators in a row. *)
Fixpoint separators (n : nat) : string :=
  match n with
  | O => EmptyString
  | S n' => String "/"%char (separators n')
  end.

(** ** Sequences of logging statements *)

(** [s1; s2; ...]: statements run one after the other. *)
Fixpoint block (ss : list Stmt) : Stmt :=
  match ss with
  | [] => void0
  | s :: ss' => seq s (block ss')
  end.

(** A use of [NIDERROR], [NIDWARNING] or [NIDINFO] whose variadic arguments
    are plain values: which macro, where, the format literal, the values. *)
Record LogCall : Type := mkLogCall {
  call_level : Severity;
  call_site : CallSite;
  call_format : string;
  call_values : list Arg
}.

Definition log_call (b : Build) (c : LogCall) : Stmt :=
  NIDLEVEL (call_level c) b (call_site c) (call_format c)
           (map ret (call_values c)).

Definition call_line (c : LogCall) : string :=
  log_line (call_site c) (format (call_format c) (call_values c)).

(** [r] differs from [w] at most by one more line on the console. *)
Definition at_most_one_line_written (w r : World) : Prop :=
  NIMaxLogLevel r = NIMaxLogLevel w
  /\ vars r = vars w
  /\ debugger r = debugger w
  /\ alive r = alive w
  /\ (console r = console w \/ exists line, console r = console w ++ [line]).

(** * Properties of the debugging tools *)

Section Formatting.

Lemma append_empty_r (s : string) : s +:+ "" = s.
Proof.
  induction s as [|c s IH]; [reflexivity|].
  change (String c s +:+ "") with (String c (s +:+ "")). now rewrite IH.
Qed.

Lemma format_call_site_prefix (p : string) (n : Z) (xx : string)
    (vs : list Arg) :
  format ("%s(%d): " +:+ xx) (CString p :: Int n :: vs)
  = p +:+ "(" +:+ pretty n +:+ "): " +:+ format xx vs.
Proof. reflexivity. Qed.

Lemma format_percent_s (v : Arg) (vs : list Arg) :
  format "%s" (v :: vs) = render v.
Proof. change (format "%s" (v :: vs)) with (render v +:+ ""). apply append_empty_r. Qed.

Lemma format_assert_failed (txt : string) :
  format "NIDASSERT failed: %s" [CString txt] = "NIDASSERT failed: " +:+ txt.
Proof.
  change (format "NIDASSERT failed: %s" [CString txt])
    with ("NIDASSERT failed: " +:+ (txt +:+ "")).
  now rewrite append_empty_r.
Qed.

Lemma eval_args_ret (vs : list Arg) (w : World) :
  eval_args (map ret vs) w = (vs, w).
Proof.
  induction vs as [|v vs IH]; simpl; [reflexivity|].
  unfold bind, ret in *. now rewrite IH.
Qed.

End Formatting.

Section Emitted.

Lemma emitted_unchanged (st : Stmt) (w : World) :
  st w = w -> emitted st w = [].
Proof. intros E. unfold emitted. rewrite E. apply drop_all. Qed.

Lemma emitted_write_console (st : Stmt) (w w1 : World) (line : string) :
  st w = write_console line w1 -> console w1 = console w ->
  emitted st w = [line].
Proof.
  intros E C. unfold emitted. rewrite E. simpl. rewrite C.
  now rewrite drop_app_length.
Qed.

End Emitted.

Section Macros.

Variables (b : Build) (cs : CallSite).

Lemma NIDPRINT_release (xx : string) (va : list (M Arg)) (w : World) :
  DEBUG b = false -> NIDPRINT b cs xx va w = w.
Proof. intros D. unfold NIDPRINT. now rewrite D. Qed.

Lemma NIDPRINT_debug (xx : string) (va : list (M Arg)) (w : World) :
  DEBUG b = true ->
  NIDPRINT b cs xx va w
  = write_console (log_line cs (format xx (eval_args va w).1))
                  (eval_args va w).2.
Proof.
  intros D. unfold NIDPRINT, NSLog. rewrite D.
  cbn [eval_args]. unfold bind, ret.
  destruct (eval_args va w) as [vs w1]. cbn [fst snd].
  now rewrite format_call_site_prefix.
Qed.

Lemma NIDCONDITIONLOG_release (condition : M Z) (xx : string)
    (va : list (M Arg)) (w : World) :
  DEBUG b = false -> NIDCONDITIONLOG b cs condition xx va w = w.
Proof. intros D. unfold NIDCONDITIONLOG. now rewrite D. Qed.

Lemma NIDCONDITIONLOG_debug (condition : M Z) (xx : string)
    (va : list (M Arg)) (w : World) :
  DEBUG b = true ->
  NIDCONDITIONLOG b cs condition xx va w
  = if (condition w).1 =? 0 then (condition w).2
    else NIDPRINT b cs xx va (condition w).2.
Proof.
  intros D. unfold NIDCONDITIONLOG, IF. rewrite D.
  now destruct (condition w) as [c w1].
Qed.

Lemma threshold_test (lvl : Z) (w : World) :
  LE (ret lvl) read_NIMaxLogLevel w
  = (if lvl <=? NIMaxLogLevel w then 1 else 0, w).
Proof. reflexivity. Qed.

Lemma NIDLEVEL_unfold (s : Severity) :
  NIDLEVEL s b cs
  = NIDCONDITIONLOG b cs (LE (ret (rank s)) read_NIMaxLogLevel).
Proof. now destruct s. Qed.

Lemma NIDLEVEL_run (s : Severity) (xx : string) (va : list (M Arg))
    (w : World) :
  NIDLEVEL s b cs xx va w
  = if DEBUG b && (rank s <=? NIMaxLogLevel w)
    then write_console (log_line cs (format xx (eval_args va w).1))
                       (eval_args va w).2
    else w.
Proof.
  rewrite NIDLEVEL_unfold.
  destruct (DEBUG b) eqn:D; cbn [andb].
  - rewrite NIDCONDITIONLOG_debug by exact D. rewrite threshold_test.
    cbn [fst snd]. destruct (rank s <=? NIMaxLogLevel w); cbn.
    + now apply NIDPRINT_debug.
    + reflexivity.
  - now apply NIDCONDITIONLOG_release.
Qed.

End Macros.

Section PureArguments.

Variables (b : Build) (cs : CallSite).

Lemma NIDLEVEL_emitted (s : Severity) (xx : string) (vs : list Arg)
    (w : World) :
  emitted (NIDLEVEL s b cs xx (map ret vs)) w
  = if DEBUG b && (rank s <=? NIMaxLogLevel w)
    then [log_line cs (format xx vs)] else [].
Proof.
  pose proof (NIDLEVEL_run b cs s xx (map ret vs) w) as R.
  rewrite eval_args_ret in R. cbn [fst snd] in R.
  destruct (DEBUG b && (rank s <=? NIMaxLogLevel w)).
  - now apply emitted_write_console with (w1 := w).
  - now apply emitted_unchanged.
Qed.

Lemma NIDCONDITIONLOG_constant (c : Z) (xx : string) (vs : list Arg)
    (w : World) :
  DEBUG b = true ->
  NIDCONDITIONLOG b cs (ret c) xx (map ret vs) w
  = if c =? 0 then w else write_console (log_line cs (format xx vs)) w.
Proof.
  intros D. rewrite NIDCONDITIONLOG_debug by exact D. cbn [ret fst snd].
  destruct (c =? 0); [reflexivity|].
  rewrite NIDPRINT_debug by exact D. now rewrite eval_args_ret.
Qed.

Lemma NIDCONDITIONLOG_emitted (c : Z) (xx : string) (vs : list Arg)
    (w : World) :
  DEBUG b = true ->
  emitted (NIDCONDITIONLOG b cs (ret c) xx (map ret vs)) w
  = if c =? 0 then [] else [log_line cs (format xx vs)].
Proof.
  intros D. pose proof (NIDCONDITIONLOG_constant c xx vs w D) as R.
  destruct (c =? 0).
  - now apply emitted_unchanged.
  - now apply emitted_write_console with (w1 := w).
Qed.

End PureArguments.

(** ** Log levels and the threshold *)

(** C6: the levels have the ranks Error = 1, Warning = 3, Info = 5, in the
    order Error < Warning < Info, and the ranks are sparse: 2 and 4 are the
    rank of no level. *)
Theorem severity_ranks_fixed_and_sparse :
  NILOGLEVEL_ERROR = 1 /\ NILOGLEVEL_WARNING = 3 /\ NILOGLEVEL_INFO = 5
  /\ rank Error = 1 /\ rank Warning = 3 /\ rank Info = 5
  /\ NILOGLEVEL_ERROR < NILOGLEVEL_WARNING < NILOGLEVEL_INFO
  /\ (forall s1 s2 : Severity, rank s1 = rank s2 -> s1 = s2)
  /\ (forall s : Severity, rank s <> 2 /\ rank s <> 4).
Proof.
  repeat split; try reflexivity.
  - intros [] []; cbn; intros E; try reflexivity; discriminate E.
  - destruct s; discriminate.
  - destruct s; discriminate.
Qed.

(** C7: [NIMaxLogLevel] is one mutable value.  At process start it is the
    Warning rank, 3; from any state it can be read, and it can be assigned
    any integer, after which that integer is what is read (the last
    assignment wins) and nothing else has changed. *)
Theorem NIMaxLogLevel_default_and_mutable :
  (forall attached : bool,
     NIMaxLogLevel (process_start attached) = NILOGLEVEL_WARNING
     /\ NIMaxLogLevel (process_start attached) = 3)
  /\ (forall w : World, read_NIMaxLogLevel w = (NIMaxLogLevel w, w))
  /\ (forall (v : Z) (w : World),
        read_NIMaxLogLevel (assign_NIMaxLogLevel v w)
        = (v, assign_NIMaxLogLevel v w))
  /\ (forall (v1 v2 : Z) (w : World),
        assign_NIMaxLogLevel v2 (assign_NIMaxLogLevel v1 w)
        = assign_NIMaxLogLevel v2 w)
  /\ (forall (v : Z) (w : World),
        let w' := assign_NIMaxLogLevel v w in
        console w' = console w /\ vars w' = vars w
        /\ debugger w' = debugger w /\ breaks w' = breaks w
        /\ alive w' = alive w).
Proof. repeat split. Qed.

(** ** Release builds *)

(** C2: when [DEBUG] is not defined, every logging and assertion macro
    leaves the program state as it found it, whatever its arguments are:
    nothing is written, and no argument (condition, asserted expression,
    variadic argument) is evaluated, so none of their side effects occurs. *)
Theorem release_build_macros_do_nothing :
  forall (b : Build) (cs : CallSite) (condition : M Z) (e : Expr)
         (xx : string) (va : list (M Arg)) (w : World),
    DEBUG b = false ->
    NIDPRINT b cs xx va w = w
    /\ NIDPRINTMETHODNAME b cs w = w
    /\ NIDASSERT b cs e w = w
    /\ NIDCONDITIONLOG b cs condition xx va w = w
    /\ NIDERROR b cs xx va w = w
    /\ NIDWARNING b cs xx va w = w
    /\ NIDINFO b cs xx va w = w.
Proof.
  intros b cs condition e xx va w D.
  unfold NIDERROR, NIDWARNING, NIDINFO, NIDPRINTMETHODNAME.
  rewrite !NIDPRINT_release, !NIDCONDITIONLOG_release by exact D.
  unfold NIDASSERT. rewrite D. repeat split.
Qed.

(** In a release build [NIDASSERT(i++ == 1)], [NIDINFO(@"%d", ++i)] and the
    others neither write nor touch [i]. *)
Lemma release_build_macros_do_nothing_witness :
  let w := set_NIMaxLogLevel 5 (process_start true) in
  let e := mkExpr "i++ == 1" (EQ (post_incr "i") (ret 1)) in
  let va := [as_int (pre_incr "i")] in
  DEBUG release_build = false
  /\ NIDPRINT release_build here "%d" va w = w
  /\ NIDPRINTMETHODNAME release_build here w = w
  /\ NIDASSERT release_build here e w = w
  /\ NIDCONDITIONLOG release_build here (post_incr "i") "%d" va w = w
  /\ NIDERROR release_build here "%d" va w = w
  /\ NIDWARNING release_build here "%d" va w = w
  /\ NIDINFO release_build here "%d" va w = w.
Proof.
  intros w e va. split; [reflexivity|].
  apply (release_build_macros_do_nothing release_build here (post_incr "i") e
           "%d" va w).
  reflexivity.
Defined.

(** The same calls in a debug build do run their arguments. *)
Example debug_build_runs_arguments :
  let w := set_NIMaxLogLevel 5 (process_start true) in
  let r := NIDINFO debug_build here "%d" [as_int (pre_incr "i")] w in
  get_var "i" w = 0 /\ get_var "i" r = 1 /\ console r = ["tag(42): 1"].
Proof. vm_compute. repeat split. Qed.

(** ** Level-based loggers *)

(** The level-based claim as the spec words it, with no mention of the build,
    fails in a release build: at process start the threshold is 3, the Error
    rank 1 is below it, and [NIDERROR] writes nothing. *)
Lemma level_logger_release_counterexample :
  let w := process_start false in
  rank Error <= NIMaxLogLevel w
  /\ emitted (NIDLEVEL Error release_build here "disk full" []) w = []
  /\ ~ (emitted (NIDLEVEL Error release_build here "disk full" []) w
          = [log_line here "disk full"]
        <-> rank Error <= NIMaxLogLevel w).
Proof.
  intros w.
  assert (L : rank Error <= NIMaxLogLevel w) by (vm_compute; discriminate).
  split; [exact L|]. split; [reflexivity|].
  intros [_ H]. specialize (H L). vm_compute in H. discriminate H.
Qed.

(** C1 (as amended): a level-based logger writes its message exactly when
    the build is a debug build and the rank of its level is at most the
    threshold; a release build writes nothing at any threshold.  With the
    threshold at Error, Warning and Info are suppressed and Error is not
    (in a debug build).  The threshold is any integer: no assignment is
    refused, and a value between two ranks selects the levels below it. *)
Theorem level_logger_emits_iff_debug_and_rank_le_threshold :
  forall (s : Severity) (b : Build) (cs : CallSite) (xx : string),
    (forall (va : list (M Arg)) (w : World),
       NIDLEVEL s b cs xx va w
       = if DEBUG b && (rank s <=? NIMaxLogLevel w)
         then write_console (log_line cs (format xx (eval_args va w).1))
                            (eval_args va w).2
         else w)
    /\ (forall (vs : list Arg) (t : Z) (w : World),
          emitted (NIDLEVEL s b cs xx (map ret vs)) (assign_NIMaxLogLevel t w)
          = [log_line cs (format xx vs)]
          <-> DEBUG b = true /\ rank s <= t)
    /\ (forall (vs : list Arg) (t : Z) (w : World),
          emitted (NIDLEVEL s b cs xx (map ret vs)) (assign_NIMaxLogLevel t w)
          = []
          <-> DEBUG b = false \/ t < rank s)
    /\ (forall (vs : list Arg) (w : World),
          let w' := assign_NIMaxLogLevel NILOGLEVEL_ERROR w in
          emitted (NIDWARNING b cs xx (map ret vs)) w' = []
          /\ emitted (NIDINFO b cs xx (map ret vs)) w' = []
          /\ emitted (NIDERROR b cs xx (map ret vs)) w'
             = if DEBUG b then [log_line cs (format xx vs)] else [])
    /\ (forall (t : Z) (w : World),
          NIMaxLogLevel (assign_NIMaxLogLevel t w) = t).
Proof.
  intros s b cs xx. split; [|split; [|split; [|split]]].
  - intros va w. apply NIDLEVEL_run.
  - intros vs t w. rewrite NIDLEVEL_emitted.
    change (NIMaxLogLevel (assign_NIMaxLogLevel t w)) with t.
    destruct (DEBUG b); cbn [andb].
    + destruct (Z.leb_spec (rank s) t); split.
      * now split.
      * reflexivity.
      * discriminate.
      * intros [_ L]. lia.
    + split; [discriminate | intros [D _]; discriminate D].
  - intros vs t w. rewrite NIDLEVEL_emitted.
    change (NIMaxLogLevel (assign_NIMaxLogLevel t w)) with t.
    destruct (DEBUG b); cbn [andb].
    + destruct (Z.leb_spec (rank s) t); split.
      * discriminate.
      * intros [D | L]; [discriminate D | lia].
      * now right.
      * reflexivity.
    + split; [now left | reflexivity].
  - intros vs w w'.
    pose proof (NIDLEVEL_emitted b cs Warning xx vs w') as W.
    pose proof (NIDLEVEL_emitted b cs Info xx vs w') as I.
    pose proof (NIDLEVEL_emitted b cs Error xx vs w') as E.
    cbn [NIDLEVEL] in W, I, E. rewrite W, I, E.
    change (NIMaxLogLevel w') with NILOGLEVEL_ERROR.
    destruct (DEBUG b); repeat split.
  - reflexivity.
Qed.

(** Between two ranks: a threshold of 2 lets Error through and nothing else,
    a threshold of 4 lets Error and Warning through. *)
Example threshold_between_ranks :
  let at_ t := set_NIMaxLogLevel t (process_start false) in
  let lines s t := emitted (NIDLEVEL s debug_build here "x" []) (at_ t) in
  lines Error 2 = ["tag(42): x"] /\ lines Warning 2 = [] /\ lines Info 2 = []
  /\ lines Error 4 = ["tag(42): x"] /\ lines Warning 4 = ["tag(42): x"]
  /\ lines Info 4 = []
  /\ lines Error 0 = [] /\ lines Info (-7) = [] /\ lines Info 5 = ["tag(42): x"].
Proof. vm_compute. repeat split. Qed.

(** ** The conditional logger *)

(** C10: in a debug build [NIDCONDITIONLOG] evaluates its condition and
    writes the formatted message exactly when the condition is true (not
    zero); when it is false the message arguments are not evaluated.  It
    never reads [NIMaxLogLevel]: with a condition and arguments that do not
    read it either, its outcome is the same under every threshold.  The
    threshold enters only through [NIDERROR], [NIDWARNING] and [NIDINFO],
    which are [NIDCONDITIONLOG] applied to the comparison of their level
    with [NIMaxLogLevel]. *)
Theorem NIDCONDITIONLOG_emits_iff_condition :
  forall (b : Build) (cs : CallSite),
    DEBUG b = true ->
    (forall (condition : M Z) (xx : string) (va : list (M Arg)) (w : World),
       let w1 := (condition w).2 in
       NIDCONDITIONLOG b cs condition xx va w
       = if (condition w).1 =? 0 then w1
         else write_console (log_line cs (format xx (eval_args va w1).1))
                            (eval_args va w1).2)
    /\ (forall (c : Z) (xx : string) (vs : list Arg) (t : Z) (w : World),
          emitted (NIDCONDITIONLOG b cs (ret c) xx (map ret vs))
                  (assign_NIMaxLogLevel t w)
          = [log_line cs (format xx vs)]
          <-> c <> 0)
    /\ (forall (c : Z) (xx : string) (vs : list Arg) (t : Z) (w : World),
          NIDCONDITIONLOG b cs (ret c) xx (map ret vs)
                          (assign_NIMaxLogLevel t w)
          = assign_NIMaxLogLevel t
              (NIDCONDITIONLOG b cs (ret c) xx (map ret vs) w))
    /\ NIDERROR b cs
       = NIDCONDITIONLOG b cs (LE (ret NILOGLEVEL_ERROR) read_NIMaxLogLevel)
    /\ NIDWARNING b cs
       = NIDCONDITIONLOG b cs (LE (ret NILOGLEVEL_WARNING) read_NIMaxLogLevel)
    /\ NIDINFO b cs
       = NIDCONDITIONLOG b cs (LE (ret NILOGLEVEL_INFO) read_NIMaxLogLevel).
Proof.
  intros b cs D. split; [|split; [|split]].
  - intros condition xx va w w1. rewrite NIDCONDITIONLOG_debug by exact D.
    destruct ((condition w).1 =? 0); [reflexivity|].
    now apply NIDPRINT_debug.
  - intros c xx vs t w. rewrite NIDCONDITIONLOG_emitted by exact D.
    destruct (Z.eqb_spec c 0) as [E | N]; split.
    + discriminate.
    + intros N. now elim N.
    + intros _. exact N.
    + reflexivity.
  - intros c xx vs t w. rewrite !NIDCONDITIONLOG_constant by exact D.
    now destruct (c =? 0).
  - repeat split.
Qed.

(** A condition with a side effect, under a threshold below every level:
    the message is written when the condition holds. *)
Lemma NIDCONDITIONLOG_emits_iff_condition_witness :
  DEBUG debug_build = true
  /\ NIDCONDITIONLOG debug_build here (pre_incr "i") "i=%d"
       [as_int (post_incr "i")] (set_NIMaxLogLevel 0 (process_start false))
     = write_console "tag(42): i=1"
         (set_var "i" 2 (set_var "i" 1
            (set_NIMaxLogLevel 0 (process_start false)))).
Proof.
  split; [reflexivity|].
  destruct (NIDCONDITIONLOG_emits_iff_condition debug_build here eq_refl)
    as [H _].
  rewrite (H (pre_incr "i") "i=%d" [as_int (post_incr "i")]
             (set_NIMaxLogLevel 0 (process_start false))).
  reflexivity.
Defined.

(** ** Assertions *)

Section Assertions.

Variables (b : Build) (cs : CallSite).

Lemma NIDASSERT_debug (xx : Expr) (w : World) :
  DEBUG b = true ->
  let w1 := (eval xx w).2 in
  NIDASSERT b cs xx w
  = if (eval xx w).1 =? 0
    then if TARGET_IPHONE_SIMULATOR b && debugger w1
         then int3 (write_console (assert_line cs xx) w1)
         else write_console (assert_line cs xx) w1
    else w1.
Proof.
  intros D w1. subst w1. unfold NIDASSERT, IF, NOT, seq. rewrite D.
  assert (P : forall w', NIDPRINT b cs "NIDASSERT failed: %s"
                           [ret (CString (text xx))] w'
                         = write_console (assert_line cs xx) w').
  { intros w'. rewrite NIDPRINT_debug by exact D.
    change (eval_args [ret (CString (text xx))] w')
      with ([CString (text xx)], w').
    cbn [fst snd]. now rewrite format_assert_failed. }
  destruct (TARGET_IPHONE_SIMULATOR b); cbn [andb]; cbv beta;
    destruct (eval xx w) as [c w1]; cbn [fst snd];
    destruct (c =? 0); cbn [Z.eqb]; rewrite ?P; try reflexivity.
  unfold NIIsInDebugger. cbn [debugger write_console].
  now destruct (debugger w1).
Qed.

End Assertions.

(** C3: in a debug build, a failed [NIDASSERT] (its expression evaluates to
    zero) writes exactly one line, which names the expression, whatever the
    threshold is; the debugger stops on a breakpoint once if the build is
    for the simulator and a debugger is attached, and not otherwise; the
    process keeps running and nothing else changes. *)
Theorem NIDASSERT_failure_logs_once_and_continues :
  forall (b : Build) (cs : CallSite) (xx : Expr) (w : World),
    DEBUG b = true ->
    (eval xx w).1 = 0 ->
    let w1 := (eval xx w).2 in
    let r := NIDASSERT b cs xx w in
    console r
    = console w1 ++ [log_line cs ("NIDASSERT failed: " +:+ text xx)]
    /\ breaks r
       = (breaks w1
          + if TARGET_IPHONE_SIMULATOR b && debugger w1 then 1 else 0)%nat
    /\ (breaks r = breaks w1 \/ debugger w1 = true)
    /\ alive r = alive w1
    /\ NIMaxLogLevel r = NIMaxLogLevel w1
    /\ vars r = vars w1
    /\ debugger r = debugger w1.
Proof.
  intros b cs xx w D F w1 r. subst r.
  rewrite NIDASSERT_debug by exact D. fold w1. rewrite F. cbn [Z.eqb].
  destruct (TARGET_IPHONE_SIMULATOR b); cbn [andb].
  - unfold int3. cbn [debugger write_console].
    destruct (debugger w1) eqn:A; cbn; repeat split; auto; lia.
  - cbn. repeat split; auto; lia.
Qed.

(** [NIDASSERT(i++ == 1)] with [i] at 0, the threshold below every level and
    no debugger: one line, no breakpoint, [i] incremented once, process
    running. *)
Lemma NIDASSERT_failure_logs_once_and_continues_witness :
  let xx := mkExpr "i++ == 1" (EQ (post_incr "i") (ret 1)) in
  let w := set_NIMaxLogLevel 0 (process_start false) in
  let r := NIDASSERT debug_build here xx w in
  DEBUG debug_build = true
  /\ (eval xx w).1 = 0
  /\ console r = ["tag(42): NIDASSERT failed: i++ == 1"]
  /\ breaks r = 0%nat
  /\ alive r = true
  /\ get_var "i" r = 1.
Proof.
  intros xx w r.
  pose proof (NIDASSERT_failure_logs_once_and_continues debug_build here xx w
                eq_refl eq_refl) as (C & B & _ & A & _ & V & _).
  split; [reflexivity|]. split; [reflexivity|].
  split; [exact C|]. split; [exact B|]. split; [exact A|].
  unfold get_var. subst r. cbv zeta in V. rewrite V. reflexivity.
Defined.

(** With a debugger attached to a simulator build the same failure stops in
    the debugger once; a device build never does; a true assertion is
    silent. *)
Example NIDASSERT_cases :
  let xx := mkExpr "i++ == 1" (EQ (post_incr "i") (ret 1)) in
  let ok := mkExpr "i == 0" (EQ (fun w => (get_var "i" w, w)) (ret 0)) in
  breaks (NIDASSERT (mkBuild true true) here xx (process_start true)) = 1%nat
  /\ alive (NIDASSERT (mkBuild true true) here xx (process_start true)) = true
  /\ breaks (NIDASSERT (mkBuild true false) here xx (process_start true))
     = 0%nat
  /\ NIDASSERT (mkBuild true true) here ok (process_start true)
     = process_start true.
Proof. vm_compute. repeat split. Qed.

(** ** Printing the method name *)

Lemma NIDPRINTMETHODNAME_debug (b : Build) (cs : CallSite) (w : World) :
  DEBUG b = true ->
  NIDPRINTMETHODNAME b cs w
  = write_console (log_line cs (PRENIY_FUNCTION cs)) w.
Proof.
  intros D. unfold NIDPRINTMETHODNAME. rewrite NIDPRINT_debug by exact D.
  change (eval_args [ret (CString (PRENIY_FUNCTION cs))] w)
    with ([CString (PRENIY_FUNCTION cs)], w).
  cbn [fst snd]. now rewrite format_percent_s.
Qed.

(** The name of the enclosing method has no part in what
    [NIDPRINTMETHODNAME] writes. *)
Lemma NIDPRINTMETHODNAME_ignores_method (b : Build) (m1 m2 : string)
    (line : Z) (p : string) (w : World) :
  NIDPRINTMETHODNAME b (mkCallSite m1 line p) w
  = NIDPRINTMETHODNAME b (mkCallSite m2 line p) w.
Proof. reflexivity. Qed.

(** C9, the code at a call site in [-[Foo bar]], line 42, where
    [__PRENIY_FUNCTION__] is the string ["tag"]: in a debug build the macro
    writes one line at every threshold, and the line carries that string,
    not the name of the enclosing method. *)
Theorem NIDPRINTMETHODNAME_writes_PRENIY_FUNCTION :
  PRETTY_FUNCTION here = "-[Foo bar]"
  /\ (forall t : Z,
        emitted (NIDPRINTMETHODNAME debug_build here)
                (set_NIMaxLogLevel t (process_start false))
        = ["tag(42): tag"])
  /\ log_line here (PRENIY_FUNCTION here)
     <> log_line here (PRETTY_FUNCTION here).
Proof.
  split; [reflexivity|]. split.
  - intros t. apply emitted_write_console with
      (w1 := set_NIMaxLogLevel t (process_start false)); [|reflexivity].
    now rewrite NIDPRINTMETHODNAME_debug.
  - vm_compute. discriminate.
Qed.

(** * Properties of the collection tests *)

(** C4: each test is a function from every value of type [id] to a boolean
    (it reads nothing but its argument and changes nothing), true exactly on
    a non-empty collection of its own shape: false on [nil], false on an
    object of any other class, false on the empty array, set or string. *)
Theorem emptiness_predicates_classify_every_value :
  forall object : Id,
    (NIIsArrayWithObjects object = true
     <-> exists x l, object = NSArray (x :: l))
    /\ (NIIsSetWithObjects object = true
        <-> exists x l, object = NSSet (x :: l))
    /\ (NIIsStringWithAnyText object = true
        <-> exists c s, object = NSString (String c s))
    /\ (NIIsArrayWithObjects object = false
        <-> object = Nil \/ (forall l, object <> NSArray l)
            \/ object = NSArray [])
    /\ (NIIsSetWithObjects object = false
        <-> object = Nil \/ (forall l, object <> NSSet l)
            \/ object = NSSet [])
    /\ (NIIsStringWithAnyText object = false
        <-> object = Nil \/ (forall s, object <> NSString s)
            \/ object = NSString "").
Proof.
  intros object. repeat match goal with |- _ /\ _ => split end.
  - destruct object as [|[|x l]|?|?|?|?|]; cbn; split;
      try discriminate; try (intros (? & ? & ?); discriminate);
      try reflexivity; intros _; eexists _, _; reflexivity.
  - destruct object as [|?|[|x l]|?|?|?|]; cbn; split;
      try discriminate; try (intros (? & ? & ?); discriminate);
      try reflexivity; intros _; eexists _, _; reflexivity.
  - destruct object as [|?|?|[|c s]|?|?|]; cbn; split;
      try discriminate; try (intros (? & ? & ?); discriminate);
      try reflexivity; intros _; eexists _, _; reflexivity.
  - destruct object as [|[|x l]|?|?|?|?|]; cbn; split; auto;
      try (intros _; right; left; discriminate).
    intros [E | [E | E]]; [discriminate E | now elim (E (x :: l)) |
                           discriminate E].
  - destruct object as [|?|[|x l]|?|?|?|]; cbn; split; auto;
      try (intros _; right; left; discriminate).
    intros [E | [E | E]]; [discriminate E | now elim (E (x :: l)) |
                           discriminate E].
  - destruct object as [|?|?|[|c s]|?|?|]; cbn; split; auto;
      try (intros _; right; left; discriminate).
    intros [E | [E | E]]; [discriminate E | now elim (E (String c s)) |
                           discriminate E].
Qed.

(** The cases the spec lists. *)
Example emptiness_predicates_cases :
  NIIsArrayWithObjects Nil = false
  /\ NIIsArrayWithObjects (NSArray []) = false
  /\ NIIsArrayWithObjects (NSArray [NSNumber 1]) = true
  /\ NIIsArrayWithObjects (NSDictionary [(NSString "k", NSNumber 1)]) = false
  /\ NIIsSetWithObjects (NSSet []) = false
  /\ NIIsSetWithObjects (NSArray [NSNumber 1]) = false
  /\ NIIsStringWithAnyText (NSString "") = false
  /\ NIIsStringWithAnyText (NSString "a") = true
  /\ NIIsStringWithAnyText (NSNumber 42) = false
  /\ NIIsStringWithAnyText NSNull = false.
Proof. repeat split. Qed.

(** * Properties of the non-retaining collections *)

Section ReferenceCounts.

Lemma release_last_owner (o : positive) (h : Heap) :
  h !! o = Some 1%nat -> release o h !! o = None.
Proof. intros H. unfold release. rewrite H. apply lookup_delete_eq. Qed.

Lemma retain_then_release (o : positive) (n : nat) (h : Heap) :
  h !! o = Some (S n) -> release o (retain o h) !! o = Some (S n).
Proof.
  intros H. unfold release, retain.
  rewrite lookup_alter_eq, H. cbn. apply lookup_insert_eq.
Qed.

Lemma array_addObjects_non_retaining (os : list positive)
    (st : MutableArray * Heap) :
  array_retains st.1 = false ->
  array_retains (array_addObjects os st).1 = false
  /\ (array_addObjects os st).2 = st.2.
Proof.
  revert st. induction os as [|o os IH]; intros [a h] R; [now split|].
  cbn in R. unfold array_addObjects in *. cbn [foldl].
  destruct (IH (array_addObject o (a, h))) as [R' H'].
  - cbn. exact R.
  - split; [exact R'|]. rewrite H'. cbn. now rewrite R.
Qed.

Lemma set_addObject_non_retaining (o : positive) (st : MutableSet * Heap) :
  set_retains st.1 = false ->
  set_retains (set_addObject o st).1 = false
  /\ (set_addObject o st).2 = st.2
  /\ o ∈ set_members (set_addObject o st).1.
Proof.
  destruct st as [s h]. cbn. intros R.
  destruct (bool_decide_reflect (o ∈ set_members s)) as [I | I]; cbn.
  - auto.
  - rewrite R. repeat split; auto. set_solver.
Qed.

Lemma set_addObjects_non_retaining (os : list positive)
    (st : MutableSet * Heap) :
  set_retains st.1 = false ->
  set_retains (set_addObjects os st).1 = false
  /\ (set_addObjects os st).2 = st.2.
Proof.
  revert st. induction os as [|o os IH]; intros st R; [now split|].
  unfold set_addObjects in *. cbn [foldl].
  destruct (set_addObject_non_retaining o st R) as (R1 & H1 & _).
  destruct (IH _ R1) as [R' H']. split; [exact R'|]. now rewrite H'.
Qed.

Lemma dictionary_setObjects_non_retaining (kos : list (string * positive))
    (st : MutableDictionary * Heap) :
  dictionary_retains st.1 = false ->
  dictionary_retains (dictionary_setObjects kos st).1 = false
  /\ (dictionary_setObjects kos st).2 = st.2.
Proof.
  revert st. induction kos as [|[k o] kos IH]; intros [d h] R; [now split|].
  cbn in R. unfold dictionary_setObjects in *. cbn [foldl].
  change ((k, o).1) with k. change ((k, o).2) with o.
  destruct (IH (dictionary_setObject k o (d, h))) as [R' H'].
  - cbn. exact R.
  - split; [exact R'|]. rewrite H'. cbn. now rewrite R.
Qed.

End ReferenceCounts.

(** C5: take a collection returned by one of the non-retaining factories,
    whatever was inserted into it before, and an object [o] with a single
    owner.  Inserting [o] leaves every retain count as it was; when the
    owner releases [o], the object is destroyed, and the collection still
    holds the reference. *)
Theorem non_retaining_collections_do_not_keep_elements_alive :
  forall (h : Heap) (o : positive) (earlier : list positive)
         (earlier_values : list (string * positive)) (k : string),
    h !! o = Some 1%nat ->
    (let st := array_addObject o
                 (array_addObjects earlier (NICreateNonRetainingArray, h)) in
     st.2 = h /\ release o st.2 !! o = None /\ o ∈ array_objects st.1)
    /\ (let st := set_addObject o
                    (set_addObjects earlier (NICreateNonRetainingSet, h)) in
        st.2 = h /\ release o st.2 !! o = None /\ o ∈ set_members st.1)
    /\ (let st := dictionary_setObject k o
                    (dictionary_setObjects earlier_values
                       (NICreateNonRetainingDictionary, h)) in
        st.2 = h /\ release o st.2 !! o = None
        /\ dictionary_values st.1 !! k = Some o).
Proof.
  intros h o earlier earlier_values k H. split; [|split].
  - destruct (array_addObjects_non_retaining earlier
                (NICreateNonRetainingArray, h) eq_refl) as [R E].
    destruct (array_addObjects earlier (NICreateNonRetainingArray, h))
      as [a h']. cbn in *. subst h'. rewrite R.
    split; [reflexivity|]. split; [now apply release_last_owner|].
    set_solver.
  - destruct (set_addObjects_non_retaining earlier
                (NICreateNonRetainingSet, h) eq_refl) as [R E].
    destruct (set_addObject_non_retaining o _ R) as (_ & E' & I).
    cbv zeta. rewrite E', E. cbn [snd].
    split; [reflexivity|]. split; [now apply release_last_owner | exact I].
  - destruct (dictionary_setObjects_non_retaining earlier_values
                (NICreateNonRetainingDictionary, h) eq_refl) as [R E].
    destruct (dictionary_setObjects earlier_values
                (NICreateNonRetainingDictionary, h)) as [d h'].
    cbn in *. subst h'. rewrite R.
    split; [reflexivity|]. split; [now apply release_last_owner|].
    apply lookup_insert_eq.
Qed.

(** Object 7 has one owner; objects 3 and 5 are already in the collections. *)
Lemma non_retaining_collections_do_not_keep_elements_alive_witness :
  let h : Heap := {[ 3%positive := 2%nat; 5%positive := 1%nat;
                     7%positive := 1%nat ]} in
  let st := array_addObject 7
              (array_addObjects [3; 5]%positive
                 (NICreateNonRetainingArray, h)) in
  h !! 7%positive = Some 1%nat
  /\ release 7 st.2 !! 7%positive = None
  /\ 7%positive ∈ array_objects st.1.
Proof.
  intros h st.
  assert (H : h !! 7%positive = Some 1%nat) by reflexivity.
  split; [exact H|].
  destruct (non_retaining_collections_do_not_keep_elements_alive
              h 7%positive [3; 5]%positive [] "delegate" H)
    as [(_ & D & I) _].
  split; [exact D | exact I].
Defined.

(** An ordinary array, in contrast, keeps the object alive after its owner
    has released it. *)
Example retaining_array_keeps_element_alive :
  let h : Heap := {[ 7%positive := 1%nat ]} in
  let st := array_addObject 7 (NSMutableArray_array, h) in
  st.2 !! 7%positive = Some 2%nat
  /\ release 7 st.2 !! 7%positive = Some 1%nat.
Proof. vm_compute. split; reflexivity. Qed.

(** * Properties of the path builders *)

Section Separators.

Lemma append_assoc (a b c : string) : (a +:+ b) +:+ c = a +:+ b +:+ c.
Proof.
  induction a as [|x a IH]; [reflexivity|].
  change (String x ((a +:+ b) +:+ c) = String x (a +:+ b +:+ c)).
  now rewrite IH.
Qed.

Lemma drop_leading_separators_cons (r : string) :
  drop_leading_separators ("/" +:+ r) = drop_leading_separators r.
Proof. reflexivity. Qed.

Lemma drop_trailing_separators_snoc (p : string) :
  drop_trailing_separators (p +:+ "/") = drop_trailing_separators p.
Proof.
  induction p as [|c p IH]; [reflexivity|].
  change (String c p +:+ "/") with (String c (p +:+ "/")).
  cbn [drop_trailing_separators]. now rewrite IH.
Qed.

Lemma drop_leading_separators_none (r : string) :
  (forall q, r <> "/" +:+ q) -> drop_leading_separators r = r.
Proof.
  destruct r as [|c r]; [reflexivity|]. intros H. cbn.
  destruct (Ascii.eqb_spec c "/"%char) as [-> | _]; [|reflexivity].
  now elim (H r).
Qed.

Lemma drop_trailing_separators_none (p : string) :
  (forall q, p <> q +:+ "/") -> drop_trailing_separators p = p.
Proof.
  induction p as [|c p IH]; [reflexivity|]. intros H.
  cbn [drop_trailing_separators]. rewrite IH.
  - destruct p as [|c' p']; [|reflexivity].
    destruct (Ascii.eqb_spec c "/"%char) as [-> | _]; [|reflexivity].
    now elim (H "").
  - intros q E. apply (H (String c q)). now rewrite E.
Qed.

Lemma separators_snoc (n : nat) :
  separators n +:+ "/" = "/" +:+ separators n.
Proof.
  induction n as [|n IH]; [reflexivity|].
  change (String "/" (separators n +:+ "/") = String "/" ("/" +:+ separators n)).
  now rewrite IH.
Qed.

Lemma drop_leading_separators_many (m : nat) (r : string) :
  drop_leading_separators (separators m +:+ r) = drop_leading_separators r.
Proof.
  induction m as [|m IH]; [reflexivity|].
  change (separators (S m) +:+ r) with ("/" +:+ (separators m +:+ r)).
  now rewrite drop_leading_separators_cons.
Qed.

Lemma drop_trailing_separators_many (n : nat) (p : string) :
  drop_trailing_separators (p +:+ separators n) = drop_trailing_separators p.
Proof.
  induction n as [|n IH].
  - change (separators 0) with "". now rewrite append_empty_r.
  - change (separators (S n)) with ("/" +:+ separators n).
    rewrite <- separators_snoc, <- append_assoc.
    now rewrite drop_trailing_separators_snoc.
Qed.

End Separators.

(** C8: each path builder returns its base directory (the given bundle's
    resource directory, the main bundle's when the bundle is [nil], the
    documents directory) and the relative path with one separator between
    them.  For a base that does not end with a separator and a relative path
    that does not start with one the result is the base, one separator, the
    relative path: the separator is inserted.  Separators the base ends with
    or the relative path starts with, however many, add nothing: one of them
    takes the place of the inserted one.  The result depends on the strings
    alone, not on what exists on disk. *)
Theorem path_builders_join_with_one_separator :
  forall (host : Host) (base relativePath : string),
    (forall q, base <> q +:+ "/") ->
    (forall q, relativePath <> "/" +:+ q) ->
    let in_bundle p := NIPathForBundleResource host (Some (mkBundle p)) in
    let in_main_bundle p :=
      NIPathForBundleResource
        (mkHost p (documentsPath host) (files host)) None in
    let in_documents p :=
      NIPathForDocumentsResource
        (mkHost (mainBundle_resourcePath host) p (files host)) in
    (in_bundle base relativePath = base +:+ "/" +:+ relativePath
     /\ in_main_bundle base relativePath = base +:+ "/" +:+ relativePath
     /\ in_documents base relativePath = base +:+ "/" +:+ relativePath)
    /\ (forall n m : nat,
          in_bundle (base +:+ separators n) (separators m +:+ relativePath)
          = base +:+ "/" +:+ relativePath
          /\ in_main_bundle (base +:+ separators n)
                            (separators m +:+ relativePath)
             = base +:+ "/" +:+ relativePath
          /\ in_documents (base +:+ separators n)
                          (separators m +:+ relativePath)
             = base +:+ "/" +:+ relativePath)
    /\ (forall p r : string,
          in_bundle (p +:+ "/") r = in_bundle p r
          /\ in_bundle p ("/" +:+ r) = in_bundle p r
          /\ in_main_bundle p r = in_bundle p r
          /\ in_documents p r = in_bundle p r)
    /\ (forall (on_disk : gset string) (bundle : option NSBundle)
               (r : string),
          let host' := mkHost (mainBundle_resourcePath host)
                              (documentsPath host) on_disk in
          NIPathForBundleResource host' bundle r
          = NIPathForBundleResource host bundle r
          /\ NIPathForDocumentsResource host' r
             = NIPathForDocumentsResource host r).
Proof.
  intros host base relativePath Hb Hr in_bundle in_main_bundle in_documents.
  assert (J : forall n m,
             append_path_component (base +:+ separators n)
                                   (separators m +:+ relativePath)
             = base +:+ "/" +:+ relativePath).
  { intros n m. unfold append_path_component.
    rewrite drop_trailing_separators_many, drop_leading_separators_many.
    now rewrite drop_trailing_separators_none, drop_leading_separators_none. }
  assert (J0 : append_path_component base relativePath
               = base +:+ "/" +:+ relativePath).
  { specialize (J 0%nat 0%nat). change (separators 0) with "" in J.
    now rewrite append_empty_r in J. }
  split; [|split; [|split]].
  - repeat split; exact J0.
  - intros n m. repeat split; apply J.
  - intros p r. unfold in_bundle, in_main_bundle, in_documents,
      NIPathForBundleResource, NIPathForDocumentsResource,
      append_path_component. cbn.
    rewrite drop_trailing_separators_snoc, drop_leading_separators_cons.
    repeat split.
  - intros on_disk bundle r. cbn. split; reflexivity.
Qed.

(** The spec's example: base ["/app"], relative path ["img/x.png"]. *)
Lemma path_builders_join_with_one_separator_witness :
  let host := mkHost "/bundle" "/home/docs" ∅ in
  (forall q, "/app" <> q +:+ "/")
  /\ (forall q, "img/x.png" <> "/" +:+ q)
  /\ NIPathForBundleResource host (Some (mkBundle "/app")) "img/x.png"
     = "/app/img/x.png"
  /\ NIPathForBundleResource host (Some (mkBundle "/app")) "/img/x.png"
     = "/app/img/x.png"
  /\ NIPathForBundleResource host (Some (mkBundle "/app//")) "//img/x.png"
     = "/app/img/x.png".
Proof.
  intros host.
  assert (Hb : forall q, "/app" <> q +:+ "/").
  { intros q E.
    do 5 (destruct q as [|? q]; [cbv in E; discriminate E|]).
    cbv in E. discriminate E. }
  assert (Hr : forall q, "img/x.png" <> "/" +:+ q).
  { intros q E. cbv in E. discriminate E. }
  destruct (path_builders_join_with_one_separator host "/app" "img/x.png"
              Hb Hr) as ((E & _) & M & _).
  split; [exact Hb|]. split; [exact Hr|]. split; [exact E|].
  split.
  - exact (proj1 (M 0%nat 1%nat)).
  - exact (proj1 (M 2%nat 2%nat)).
Defined.

(** Separators on either side, the main bundle, and the empty strings: an
    empty base gives a path from the root, an empty relative path gives the
    base with a separator after it. *)
Example path_builders_cases :
  let host := mkHost "/bundle/" "/home/docs" ∅ in
  NIPathForBundleResource host (Some (mkBundle "/app/")) "img/x.png"
  = "/app/img/x.png"
  /\ NIPathForBundleResource host (Some (mkBundle "/app/")) "/img/x.png"
     = "/app/img/x.png"
  /\ NIPathForBundleResource host None "a.plist" = "/bundle/a.plist"
  /\ NIPathForDocumentsResource host "notes.txt" = "/home/docs/notes.txt"
  /\ NIPathForDocumentsResource host "a//b.txt" = "/home/docs/a//b.txt"
  /\ NIPathForBundleResource host (Some (mkBundle "/")) "etc" = "/etc"
  /\ NIPathForBundleResource host (Some (mkBundle "")) "img/x.png"
     = "/img/x.png"
  /\ NIPathForBundleResource host (Some (mkBundle "/app")) "" = "/app/".
Proof. repeat split. Qed.

(** * Further properties of the debugging tools *)

Section LevelLoggers.

Lemma NIDLEVEL_values (b : Build) (cs : CallSite) (s : Severity)
    (xx : string) (vs : list Arg) (w : World) :
  NIDLEVEL s b cs xx (map ret vs) w
  = if DEBUG b && (rank s <=? NIMaxLogLevel w)
    then write_console (log_line cs (format xx vs)) w
    else w.
Proof. rewrite NIDLEVEL_run. now rewrite eval_args_ret. Qed.

Lemma world_eta (w : World) :
  mkWorld (NIMaxLogLevel w) (console w) (vars w) (debugger w) (breaks w)
          (alive w) = w.
Proof. now destruct w. Qed.

Lemma block_log_calls (b : Build) (calls : list LogCall) (w : World) :
  block (map (log_call b) calls) w
  = mkWorld (NIMaxLogLevel w)
      (console w
       ++ (if DEBUG b
           then map call_line
                  (List.filter
                     (fun c => rank (call_level c) <=? NIMaxLogLevel w) calls)
           else []))
      (vars w) (debugger w) (breaks w) (alive w).
Proof.
  revert w. induction calls as [|c calls IH]; intros w.
  - cbn. destruct (DEBUG b); rewrite app_nil_r; symmetry; apply world_eta.
  - cbn [map block List.filter]. unfold seq. rewrite IH.
    unfold log_call at 1 2 3 4 5 6 7. rewrite NIDLEVEL_values. fold (call_line c).
    destruct (DEBUG b) eqn:D; cbn [andb].
    + destruct (rank (call_level c) <=? NIMaxLogLevel w); cbn.
      * now rewrite <- app_assoc.
      * reflexivity.
    + reflexivity.
Qed.

End LevelLoggers.

(** X1: a run of level-logger calls (plain values as arguments) appends to
    the console, in the order of the calls, the lines of exactly those calls
    whose level ranks at most the threshold in force when the run starts;
    a release build appends nothing.  The run leaves the threshold and the
    program variables as they were, so every call of the run is judged
    against the same threshold. *)
Theorem level_logger_run_writes_filtered_calls_in_order :
  forall (b : Build) (calls : list LogCall) (w : World),
    let r := block (map (log_call b) calls) w in
    console r
    = console w
      ++ (if DEBUG b
          then map call_line
                 (List.filter
                    (fun c => rank (call_level c) <=? NIMaxLogLevel w) calls)
          else [])
    /\ emitted (block (map (log_call b) calls)) w
       = (if DEBUG b
          then map call_line
                 (List.filter
                    (fun c => rank (call_level c) <=? NIMaxLogLevel w) calls)
          else [])
    /\ NIMaxLogLevel r = NIMaxLogLevel w
    /\ vars r = vars w
    /\ breaks r = breaks w
    /\ alive r = alive w.
Proof.
  intros b calls w r. subst r. unfold emitted.
  rewrite block_log_calls. cbn [console NIMaxLogLevel vars breaks alive].
  split; [reflexivity|]. split; [apply drop_app_length|]. repeat split.
Qed.

(** Three calls at threshold 3: the Info line is left out, the other two
    come in call order. *)
Example level_logger_run_example :
  let calls := [mkLogCall Warning here "low disk: %d%%" [Int 7];
                mkLogCall Info here "tick" [];
                mkLogCall Error here "lost %s" [CString "db"]] in
  emitted (block (map (log_call debug_build) calls)) (process_start false)
  = ["tag(42): low disk: 7%"; "tag(42): lost db"].
Proof. vm_compute. reflexivity. Qed.

(** X2: the levels are a hierarchy.  If a level logger writes at some
    threshold, then in the same build every logger of the same or a more
    severe level (a rank at most as large) writes at that and at every
    larger threshold, whatever its call site and message. *)
Theorem level_logger_more_severe_or_higher_threshold_writes :
  forall (b : Build) (s s' : Severity) (cs cs' : CallSite)
         (xx xx' : string) (vs vs' : list Arg) (t t' : Z) (w w' : World),
    rank s' <= rank s ->
    t <= t' ->
    emitted (NIDLEVEL s b cs xx (map ret vs)) (assign_NIMaxLogLevel t w)
    = [log_line cs (format xx vs)] ->
    emitted (NIDLEVEL s' b cs' xx' (map ret vs')) (assign_NIMaxLogLevel t' w')
    = [log_line cs' (format xx' vs')].
Proof.
  intros b s s' cs cs' xx xx' vs vs' t t' w w' Hs Ht H.
  rewrite NIDLEVEL_emitted in *.
  change (NIMaxLogLevel (assign_NIMaxLogLevel t w)) with t in H.
  change (NIMaxLogLevel (assign_NIMaxLogLevel t' w')) with t'.
  destruct (DEBUG b); cbn [andb] in *; [|discriminate H].
  destruct (Z.leb_spec (rank s) t); [|discriminate H].
  destruct (Z.leb_spec (rank s') t'); [reflexivity | lia].
Qed.

(** An Info message written at threshold 5 forces an Error message to be
    written at threshold 9. *)
Lemma level_logger_more_severe_or_higher_threshold_writes_witness :
  rank Error <= rank Info
  /\ 5 <= 9
  /\ emitted (NIDLEVEL Info debug_build here "tick" (map ret []))
             (assign_NIMaxLogLevel 5 (process_start false))
     = [log_line here (format "tick" [])]
  /\ emitted (NIDLEVEL Error debug_build here "lost %s"
                (map ret [CString "db"]))
             (assign_NIMaxLogLevel 9 (process_start true))
     = [log_line here (format "lost %s" [CString "db"])].
Proof.
  assert (Hs : rank Error <= rank Info) by (vm_compute; discriminate).
  assert (Ht : 5 <= 9) by (vm_compute; discriminate).
  assert (H : emitted (NIDLEVEL Info debug_build here "tick" (map ret []))
                      (assign_NIMaxLogLevel 5 (process_start false))
              = [log_line here (format "tick" [])]) by reflexivity.
  split; [exact Hs|]. split; [exact Ht|]. split; [exact H|].
  exact (level_logger_more_severe_or_higher_threshold_writes
           debug_build Info Error here here "tick" "lost %s" []
           [CString "db"] 5 9 (process_start false) (process_start true)
           Hs Ht H).
Defined.

(** X3: the two ends of the threshold.  The three level loggers are all
    silent exactly when the build is a release build or the threshold is
    below [NILOGLEVEL_ERROR]; they all write exactly when the build is a
    debug build and the threshold is at least [NILOGLEVEL_INFO]. *)
Theorem level_loggers_all_silent_or_all_writing :
  forall (b : Build) (cs : CallSite) (xx : string) (vs : list Arg)
         (t : Z) (w : World),
    ((forall s : Severity,
        emitted (NIDLEVEL s b cs xx (map ret vs)) (assign_NIMaxLogLevel t w)
        = [])
     <-> DEBUG b = false \/ t < NILOGLEVEL_ERROR)
    /\ ((forall s : Severity,
           emitted (NIDLEVEL s b cs xx (map ret vs))
                   (assign_NIMaxLogLevel t w)
           = [log_line cs (format xx vs)])
        <-> DEBUG b = true /\ NILOGLEVEL_INFO <= t).
Proof.
  intros b cs xx vs t w.
  assert (E : forall s,
             emitted (NIDLEVEL s b cs xx (map ret vs))
                     (assign_NIMaxLogLevel t w)
             = if DEBUG b && (rank s <=? t)
               then [log_line cs (format xx vs)] else []).
  { intros s. now rewrite NIDLEVEL_emitted. }
  split; split.
  - intros H. specialize (H Error). rewrite E in H.
    destruct (DEBUG b); [|now left]. cbn [andb rank] in H.
    destruct (Z.leb_spec NILOGLEVEL_ERROR t); [discriminate H | now right].
  - intros H s. rewrite E. destruct H as [-> | H]; [reflexivity|].
    destruct (DEBUG b); [|reflexivity]. cbn [andb].
    destruct (Z.leb_spec (rank s) t) as [L|]; [|reflexivity].
    destruct s; unfold rank, NILOGLEVEL_ERROR, NILOGLEVEL_WARNING,
      NILOGLEVEL_INFO in *; lia.
  - intros H. specialize (H Info). rewrite E in H.
    destruct (DEBUG b); [|discriminate H]. cbn [andb rank] in H.
    destruct (Z.leb_spec NILOGLEVEL_INFO t); [now split | discriminate H].
  - intros [D H] s. rewrite E, D. cbn [andb].
    destruct (Z.leb_spec (rank s) t) as [|L]; [reflexivity|].
    destruct s; unfold rank, NILOGLEVEL_ERROR, NILOGLEVEL_WARNING,
      NILOGLEVEL_INFO in *; lia.
Qed.

(** X4: in a debug build [NIDPRINT] evaluates its variadic arguments once
    and then writes exactly one line, the call-site prefix followed by the
    formatted message, under every threshold, also one below every level;
    it does not change the threshold. *)
Theorem NIDPRINT_writes_at_every_threshold :
  forall (b : Build) (cs : CallSite) (xx : string) (va : list (M Arg))
         (vs : list Arg) (t : Z) (w : World),
    DEBUG b = true ->
    let w0 := assign_NIMaxLogLevel t w in
    NIDPRINT b cs xx va w0
    = write_console (log_line cs (format xx (eval_args va w0).1))
                    (eval_args va w0).2
    /\ emitted (NIDPRINT b cs xx (map ret vs)) w0
       = [log_line cs (format xx vs)]
    /\ NIMaxLogLevel (NIDPRINT b cs xx (map ret vs) w0) = t.
Proof.
  intros b cs xx va vs t w D w0.
  split; [now apply NIDPRINT_debug|].
  pose proof (NIDPRINT_debug b cs xx (map ret vs) w0 D) as R.
  rewrite eval_args_ret in R. cbn [fst snd] in R.
  split.
  - now apply emitted_write_console with (w1 := w0).
  - now rewrite R.
Qed.

(** [NIDPRINT(@"i=%d", ++i)] at threshold 0: one line, [i] incremented
    once. *)
Lemma NIDPRINT_writes_at_every_threshold_witness :
  let w0 := assign_NIMaxLogLevel 0 (process_start false) in
  DEBUG debug_build = true
  /\ NIDPRINT debug_build here "i=%d" [as_int (pre_incr "i")] w0
     = write_console "tag(42): i=1" (set_var "i" 1 w0)
  /\ emitted (NIDPRINT debug_build here "done" (map ret [])) w0
     = ["tag(42): done"].
Proof.
  intros w0.
  destruct (NIDPRINT_writes_at_every_threshold debug_build here "i=%d"
              [as_int (pre_incr "i")] [] 0 (process_start false) eq_refl)
    as (R & _ & _).
  destruct (NIDPRINT_writes_at_every_threshold debug_build here "done"
              [] [] 0 (process_start false) eq_refl)
    as (_ & E & _).
  split; [reflexivity|]. split; [exact R | exact E].
Defined.

(** X5: in a debug build an assertion that holds (its expression evaluates
    to a value other than zero) does nothing but evaluate the expression,
    once: nothing is written, no trap runs, and the function the expansion
    calls under the name [NIIsInDebugger] is not called.  Whatever that
    function does to the state when it is called, the state after the
    assertion is the one the expression left. *)
Theorem NIDASSERT_success_only_evaluates :
  forall (query : M Z) (b : Build) (cs : CallSite) (xx : Expr) (w : World),
    DEBUG b = true ->
    (eval xx w).1 <> 0 ->
    NIDASSERT_calling query b cs xx w = (eval xx w).2
    /\ NIDASSERT b cs xx w = (eval xx w).2
    /\ NIDASSERT b cs xx = NIDASSERT_calling NIIsInDebugger b cs xx.
Proof.
  intros query b cs xx w D T.
  assert (G : forall q, NIDASSERT_calling q b cs xx w = (eval xx w).2).
  { intros q. unfold NIDASSERT_calling, IF, NOT, seq. rewrite D.
    destruct (TARGET_IPHONE_SIMULATOR b); cbv beta;
      destruct (eval xx w) as [c w1]; cbn [fst snd] in *;
      destruct (Z.eqb_spec c 0) as [E|_]; try (now elim T); reflexivity. }
  split; [apply G|]. split; [apply (G NIIsInDebugger) | reflexivity].
Qed.

(** [NIDASSERT(i++ == 0)] with [i] at 0 and a debugger attached, where the
    function called as [NIIsInDebugger] counts its calls in [asked]: [i]
    becomes 1, [asked] stays unset, and that is all. *)
Lemma NIDASSERT_success_only_evaluates_witness :
  let xx := mkExpr "i++ == 0" (EQ (post_incr "i") (ret 0)) in
  let w := process_start true in
  DEBUG debug_build = true
  /\ (eval xx w).1 <> 0
  /\ NIDASSERT_calling (pre_incr "asked") debug_build here xx w
     = set_var "i" 1 w
  /\ NIDASSERT debug_build here xx w = set_var "i" 1 w.
Proof.
  intros xx w.
  assert (T : (eval xx w).1 <> 0) by (vm_compute; discriminate).
  destruct (NIDASSERT_success_only_evaluates (pre_incr "asked") debug_build
              here xx w eq_refl T) as (Q & N & _).
  split; [reflexivity|]. split; [exact T|]. split; [exact Q | exact N].
Defined.

(** The same function is called, once, when the assertion fails in a
    simulator build. *)
Example NIDASSERT_failure_calls_the_query :
  let xx := mkExpr "i++ == 1" (EQ (post_incr "i") (ret 1)) in
  let r := NIDASSERT_calling (pre_incr "asked") debug_build here xx
             (process_start true) in
  get_var "asked" r = 1 /\ get_var "i" r = 1 /\ breaks r = 1%nat.
Proof. vm_compute. repeat split. Qed.

Section AssertedExpression.

Variables (b : Build) (cs : CallSite).

Lemma NIDASSERT_debug_frame (xx : Expr) (w : World) :
  DEBUG b = true ->
  let w1 := (eval xx w).2 in
  let r := NIDASSERT b cs xx w in
  vars r = vars w1 /\ NIMaxLogLevel r = NIMaxLogLevel w1
  /\ debugger r = debugger w1 /\ alive r = alive w1
  /\ (console r = console w1
      \/ console r = console w1 ++ [assert_line cs xx])
  /\ (breaks r = breaks w1
      \/ (breaks r = S (breaks w1) /\ debugger w1 = true)).
Proof.
  intros D w1 r. subst r. rewrite NIDASSERT_debug by exact D. fold w1.
  destruct ((eval xx w).1 =? 0); [|repeat split; auto].
  destruct (TARGET_IPHONE_SIMULATOR b); cbn [andb].
  - unfold int3. cbn [debugger write_console].
    destruct (debugger w1) eqn:A; cbn; rewrite ?A; repeat split; auto.
  - cbn. repeat split; auto.
Qed.

End AssertedExpression.

(** X6: an asserted expression with a side effect makes the two builds
    differ.  After [NIDASSERT(xx)] the program variables of a debug build
    are those left by evaluating [xx], whether the assertion held or not,
    and those of a release build are untouched: the builds agree on the
    variables exactly when evaluating [xx] leaves them as they were. *)
Theorem NIDASSERT_builds_agree_iff_expression_keeps_variables :
  forall (d r : Build) (cs : CallSite) (xx : Expr) (w : World),
    DEBUG d = true ->
    DEBUG r = false ->
    vars (NIDASSERT d cs xx w) = vars (eval xx w).2
    /\ vars (NIDASSERT r cs xx w) = vars w
    /\ (vars (NIDASSERT d cs xx w) = vars (NIDASSERT r cs xx w)
        <-> vars (eval xx w).2 = vars w).
Proof.
  intros d r cs xx w D R.
  destruct (NIDASSERT_debug_frame d cs xx w D) as (V & _).
  assert (V' : NIDASSERT r cs xx w = w).
  { unfold NIDASSERT. now rewrite R. }
  rewrite V'. split; [exact V|]. split; [reflexivity|]. now rewrite V.
Qed.

(** [NIDASSERT(i++ == 1)] with [i] at 0: the debug build ends with [i] at 1,
    the release build with [i] unset. *)
Lemma NIDASSERT_builds_agree_iff_expression_keeps_variables_witness :
  let xx := mkExpr "i++ == 1" (EQ (post_incr "i") (ret 1)) in
  let w := process_start false in
  DEBUG debug_build = true
  /\ DEBUG release_build = false
  /\ get_var "i" (NIDASSERT debug_build here xx w) = 1
  /\ get_var "i" (NIDASSERT release_build here xx w) = 0.
Proof.
  intros xx w.
  destruct (NIDASSERT_builds_agree_iff_expression_keeps_variables
              debug_build release_build here xx w eq_refl eq_refl)
    as (V & V' & _).
  split; [reflexivity|]. split; [reflexivity|].
  unfold get_var. rewrite V, V'. split; reflexivity.
Defined.

(** X7: what the macros never do.  With arguments that are plain values
    (and an asserted expression without side effects), in every build and
    under every threshold, each macro leaves the threshold, the program
    variables and the running process as they were and adds at most one
    line to the console, after the lines already there.  Only [NIDASSERT]
    can stop in the debugger, at most once, and only with one attached. *)
Theorem macros_change_nothing_but_the_console :
  forall (b : Build) (cs : CallSite) (s : Severity) (c v : Z)
         (xx txt : string) (vs : list Arg) (w : World),
    let printed := NIDPRINT b cs xx (map ret vs) w in
    let named := NIDPRINTMETHODNAME b cs w in
    let conditioned := NIDCONDITIONLOG b cs (ret c) xx (map ret vs) w in
    let levelled := NIDLEVEL s b cs xx (map ret vs) w in
    let asserted := NIDASSERT b cs (mkExpr txt (ret v)) w in
    (at_most_one_line_written w printed /\ breaks printed = breaks w)
    /\ (at_most_one_line_written w named /\ breaks named = breaks w)
    /\ (at_most_one_line_written w conditioned
        /\ breaks conditioned = breaks w)
    /\ (at_most_one_line_written w levelled /\ breaks levelled = breaks w)
    /\ (at_most_one_line_written w asserted
        /\ (breaks asserted = breaks w
            \/ (breaks asserted = S (breaks w) /\ debugger w = true))).
Proof.
  intros b cs s c v xx txt vs w.
  assert (Same : at_most_one_line_written w w /\ breaks w = breaks w).
  { unfold at_most_one_line_written. repeat split; auto. }
  assert (One : forall line,
             at_most_one_line_written w (write_console line w)
             /\ breaks (write_console line w) = breaks w).
  { intros line. unfold at_most_one_line_written. cbn.
    repeat split; eauto. }
  assert (P : forall xx' vs',
             at_most_one_line_written w (NIDPRINT b cs xx' (map ret vs') w)
             /\ breaks (NIDPRINT b cs xx' (map ret vs') w) = breaks w).
  { intros xx' vs'. destruct (DEBUG b) eqn:D.
    - rewrite NIDPRINT_debug by exact D. rewrite eval_args_ret. apply One.
    - rewrite NIDPRINT_release by exact D. exact Same. }
  cbv zeta. split; [apply P|]. split.
  { apply (P "%s" [CString (PRENIY_FUNCTION cs)]). }
  split.
  { destruct (DEBUG b) eqn:D.
    - rewrite NIDCONDITIONLOG_constant by exact D.
      destruct (c =? 0); [exact Same | apply One].
    - rewrite NIDCONDITIONLOG_release by exact D. exact Same. }
  split.
  { rewrite NIDLEVEL_values.
    destruct (DEBUG b && (rank s <=? NIMaxLogLevel w)); [apply One|].
    exact Same. }
  destruct (DEBUG b) eqn:D.
  - destruct (NIDASSERT_debug_frame b cs (mkExpr txt (ret v)) w D)
      as (V & L & A & R & C & B).
    cbn [eval ret fst snd] in *. unfold at_most_one_line_written.
    repeat split; auto. destruct C as [C|C]; eauto.
  - assert (E : NIDASSERT b cs (mkExpr txt (ret v)) w = w).
    { unfold NIDASSERT. now rewrite D. }
    rewrite E. destruct Same as [S1 S2]. split; [exact S1 | now left].
Qed.
